(** * utility-server: a model of [src/mcp_server/server.py]

    The development follows the layout of the Python module:
    the three time tools, the ASGI router of the remote (SSE) mode, and the
    [main] entry point.  Python [str] values are represented by their UTF-8
    encoding as [string]; Python [int] by [Z]; [bytes] by [list byte];
    a [dict] by a [gmap].  Calls into collaborators (zoneinfo, datetime,
    the MCP library, uvicorn) are recorded as effects in a trace, and Python
    exceptions are values of type [exn] threaded by an error monad. *)

From Stdlib Require Import ZArith Lia.
From Stdlib Require Import Strings.Byte Strings.Ascii.
From stdpp Require Import base option strings list gmap pretty.

Local Open Scope Z_scope.

(** ** Python exceptions *)

(** The part of the built-in exception hierarchy the module touches, and
    the error the spec names for a duplicate registration. *)
Inductive exc_class : Type :=
  | Exception
  | LookupError
  | KeyError
  | ZoneInfoNotFoundError
  | TypeError
  | ValueError
  | ArithmeticError
  | OverflowError
  | OSError
  | FileNotFoundError
  | IsADirectoryError
  | PermissionError
  | DuplicateNameError.

#[global] Instance exc_class_eq_dec : EqDecision exc_class.
Proof. solve_decision. Defined.

(** Direct base class, as declared by CPython and by [zoneinfo]
    ([ZoneInfoNotFoundError] derives from [KeyError]). *)
Definition parent (c : exc_class) : option exc_class :=
  match c with
  | Exception => None
  | LookupError => Some Exception
  | KeyError => Some LookupError
  | ZoneInfoNotFoundError => Some KeyError
  | TypeError => Some Exception
  | ValueError => Some Exception
  | ArithmeticError => Some Exception
  | OverflowError => Some ArithmeticError
  | OSError => Some Exception
  | FileNotFoundError => Some OSError
  | IsADirectoryError => Some OSError
  | PermissionError => Some OSError
  | DuplicateNameError => Some Exception
  end.

Fixpoint ancestors (fuel : nat) (c : exc_class) : list exc_class :=
  c :: match fuel, parent c with
       | S n, Some p => ancestors n p
       | _, _ => []
       end.

(** [issubclass c d]: the test an [except d] clause applies to an exception
    of class [c].  The hierarchy above has depth four. *)
Definition issubclass (c d : exc_class) : bool :=
  bool_decide (d ∈ ancestors 4 c).

(** A raised exception: its class and [str(e)]. *)
Record exn : Type := mk_exn { exn_class : exc_class; exn_msg : string }.

(** ** Computations with a trace of collaborator calls and a Python result *)

Definition M (E A : Type) : Type := (list E * (exn + A))%type.

Definition trace {E A} (m : M E A) : list E := fst m.
Definition outcome {E A} (m : M E A) : exn + A := snd m.

#[global] Instance M_ret {E} : MRet (M E) := λ A a, ([], inr a).

#[global] Instance M_bind {E} : MBind (M E) := λ A B k m,
  match m with
  | (tr, inl e) => (tr, inl e)
  | (tr, inr a) => let '(tr', r) := k a in (tr ++ tr', r)
  end.

#[global] Instance M_fmap {E} : FMap (M E) := λ A B f m,
  match m with
  | (tr, inl e) => (tr, inl e)
  | (tr, inr a) => (tr, inr (f a))
  end.

Definition raise {E A} (e : exn) : M E A := ([], inl e).

(** Perform the call [ev] of a collaborator whose result is [r]. *)
Definition call {E A} (ev : E) (r : exn + A) : M E A := ([ev], r).

(** [try: body  except (classes) as e: handler e] *)
Definition try_except {E A} (body : M E A) (classes : list exc_class)
    (handler : exn → M E A) : M E A :=
  match body with
  | (tr, inl e) =>
      if existsb (issubclass (exn_class e)) classes
      then let '(tr', r) := handler e in (tr ++ tr', r)
      else (tr, inl e)
  | (tr, inr a) => (tr, inr a)
  end.

(** [msg] contains [s] as a contiguous piece. *)
Definition mentions (msg s : string) : Prop :=
  ∃ pre post : string, msg = pre +:+ s +:+ post.

(** ** The collaborators of the time tools *)

(** [zoneinfo.ZoneInfo] and the [datetime] operations the tools use.
    [ZoneInfo] and [datetime.fromtimestamp] may raise; [datetime.now(tz)]
    reads the clock, and formatting a constructed datetime with the fixed
    format below does not fail. *)
Class Platform : Type := {
  tzinfo : Type;
  datetime : Type;
  ZoneInfo : string → exn + tzinfo;
  datetime_now : tzinfo → datetime;
  datetime_now_local_timestamp : Z;
  datetime_fromtimestamp : Z → tzinfo → exn + datetime;
  datetime_strftime : datetime → string → string;
}.

Inductive lib_call : Type :=
  | CallZoneInfo (key : string)
  | CallNow
  | CallTimestamp
  | CallFromTimestamp (timestamp : Z)
  | CallStrftime (fmt : string).

Definition time_format : string := "%Y-%m-%d %H:%M:%S %Z".

Section tools.
Context `{Platform}.

(** Lines 36-70. *)
Definition get_current_time (timezone : string) : M lib_call string :=
  tz ← try_except (call (CallZoneInfo timezone) (ZoneInfo timezone))
         [ZoneInfoNotFoundError]
         (λ _, raise (mk_exn ValueError
            ("无效的时区名称: " +:+ timezone +:+ "。"
             +:+ "请使用标准时区名称，如 'Asia/Shanghai', 'UTC', 'America/New_York' 等。")));
  now ← call CallNow (inr (datetime_now tz));
  call (CallStrftime time_format) (inr (datetime_strftime now time_format)).

(** Lines 73-84: [int(datetime.now().timestamp())]. *)
Definition get_timestamp : M lib_call Z :=
  call CallTimestamp (inr datetime_now_local_timestamp).

(** Lines 87-112. *)
Definition format_timestamp (timestamp : Z) (timezone : string)
    : M lib_call string :=
  tz ← try_except (call (CallZoneInfo timezone) (ZoneInfo timezone))
         [ZoneInfoNotFoundError]
         (λ _, raise (mk_exn ValueError ("无效的时区名称: " +:+ timezone)));
  try_except
    (dt ← call (CallFromTimestamp timestamp)
               (datetime_fromtimestamp timestamp tz);
     call (CallStrftime time_format) (inr (datetime_strftime dt time_format)))
    [OSError; OverflowError]
    (λ e, raise (mk_exn ValueError
       ("无效的时间戳: " +:+ pretty timestamp +:+ "。错误: " +:+ exn_msg e))).
End tools.

(** ** The ASGI router of the remote mode (lines 120-185) *)

Definition bytes : Type := list byte.

(** A bytes literal [b"..."]. *)
Definition b (s : string) : bytes := String.list_byte_of_string s.

(** The two response events [app] passes to [send]. *)
Inductive asgi_event : Type :=
  | HttpResponseStart (status : Z) (headers : list (bytes * bytes))
  | HttpResponseBody (body : bytes).

(** The connection scope is a [dict]; the router reads the entries
    [type], [path] and [method], which hold [str] values. *)
Inductive asgi_effect : Type :=
  | Send (ev : asgi_event)
  | HandleSse (scope : gmap string string)
  | HandlePostMessage (scope : gmap string string).

(** [d[key]] on a dict: [KeyError] when the key is absent. *)
Definition getitem {E} (d : gmap string string) (key : string) : M E string :=
  match d !! key with
  | Some v => mret v
  | None => raise (mk_exn KeyError ("'" +:+ key +:+ "'"))
  end.

(** Line 131: [SseServerTransport("/messages")]. *)
Definition sse_transport_endpoint : string := "/messages".

(** Lines 133-143: opens the SSE stream and runs the MCP session on it;
    the session itself is run by the MCP library. *)
Definition handle_sse (scope : gmap string string) : M asgi_effect () :=
  call (HandleSse scope) (inr ()).

(** Line 162: [sse_transport.handle_post_message]. *)
Definition handle_post_message (scope : gmap string string)
    : M asgi_effect () :=
  call (HandlePostMessage scope) (inr ()).

Definition send (ev : asgi_event) : M asgi_effect () :=
  call (Send ev) (inr ()).

(** Lines 145-177. *)
Definition app (scope : gmap string string) : M asgi_effect () :=
  ty ← getitem scope "type";
  if bool_decide (ty ≠ "http") then mret ()
  else
    path ← getitem scope "path";
    let method := default "GET" (scope !! "method") in
    if bool_decide (path = "/sse") && bool_decide (method = "GET")
    then handle_sse scope
    else if bool_decide (path = "/messages") && bool_decide (method = "POST")
    then handle_post_message scope
    else
      _ ← send (HttpResponseStart 404 [(b "content-type", b "text/plain")]);
      send (HttpResponseBody (b "Not Found")).

(** The scope the HTTP server hands to [app] for a request line
    [method target], as ASGI prescribes: the target is cut at its first
    question mark into the path and the query string. *)
Fixpoint split_target (target : string) : string * string :=
  match target with
  | EmptyString => (EmptyString, EmptyString)
  | String c rest =>
      if bool_decide (c = "?"%char) then (EmptyString, rest)
      else let '(p, q) := split_target rest in (String c p, q)
  end.

Definition http_scope (method target : string) : gmap string string :=
  let '(path, query) := split_target target in
  <["type" := "http"]> (<["method" := method]> (<["path" := path]>
    (<["query_string" := query]> ∅))).

(** Modelled from the spec: the endpoint event the SSE transport of the MCP
    library emits when a stream opens is not in this repository.  Section 4.5:
    the URL the client must POST to, with the session id embedded as a
    query parameter. *)
Definition announced_endpoint (session_id : string) : string :=
  sse_transport_endpoint +:+ "?session_id=" +:+ session_id.

(** ** Tool registration (the [@mcp.tool()] decorators) *)

Inductive value : Type :=
  | VStr (s : string)
  | VInt (n : Z).

Inductive kind : Type := KStr | KInt.

Definition kind_of (v : value) : kind :=
  match v with VStr _ => KStr | VInt _ => KInt end.

#[global] Instance kind_eq_dec : EqDecision kind.
Proof. solve_decision. Defined.

(** One parameter of a tool's signature; [p_default = None] marks a
    required parameter. *)
Record param : Type := mk_param {
  p_name : string;
  p_kind : kind;
  p_default : option value;
}.

(** Modelled from the spec: the tool record of the MCP library is not in
    this repository.  Section 3, ToolDescriptor: name, input schema and
    handler (the description text, a docstring, is left out). *)
Record ToolDescriptor : Type := mk_tool {
  tool_name : string;
  inputSchema : list param;
  handler : gmap string value → M lib_call value;
}.

Section descriptors.
Context `{Platform}.

(** What the decorator derives from each function: the name of the
    function, its parameters with their annotations and defaults, and the
    function itself applied to the keyword arguments (a call that lacks
    an argument is a [TypeError]). *)
Definition get_current_time_tool : ToolDescriptor :=
  mk_tool "get_current_time"
    [mk_param "timezone" KStr (Some (VStr "Asia/Shanghai"))]
    (λ args,
       match args !! "timezone" with
       | Some (VStr tz) => VStr <$> get_current_time tz
       | _ => raise (mk_exn TypeError "get_current_time() argument")
       end).

Definition get_timestamp_tool : ToolDescriptor :=
  mk_tool "get_timestamp" [] (λ _, VInt <$> get_timestamp).

Definition format_timestamp_tool : ToolDescriptor :=
  mk_tool "format_timestamp"
    [mk_param "timestamp" KInt None;
     mk_param "timezone" KStr (Some (VStr "Asia/Shanghai"))]
    (λ args,
       match args !! "timestamp", args !! "timezone" with
       | Some (VInt ts), Some (VStr tz) => VStr <$> format_timestamp ts tz
       | _, _ => raise (mk_exn TypeError "format_timestamp() argument")
       end).

(** The decorated functions in the order the module defines them
    (lines 36, 73 and 87). *)
Definition decorated_tools : list ToolDescriptor :=
  [get_current_time_tool; get_timestamp_tool; format_timestamp_tool].
End descriptors.

(** ** Tool registry and dispatcher *)

(** Modelled from the spec: the tool manager of the MCP library is not in
    this repository.  Section 4.1: descriptors are kept in registration
    order; [register] fails with [DuplicateNameError] if the name is already
    present; [lookup] returns the descriptor or reports a miss. *)
Definition lookup_tool (name : string) (reg : list ToolDescriptor)
    : option ToolDescriptor :=
  find (λ d, bool_decide (tool_name d = name)) reg.

(** Modelled from the spec: registration in the tool manager of the MCP
    library.  Section 4.1: a name already present is refused, a new
    descriptor is appended. *)
Definition register (d : ToolDescriptor) (reg : list ToolDescriptor)
    : exn + list ToolDescriptor :=
  match lookup_tool (tool_name d) reg with
  | Some _ => inl (mk_exn DuplicateNameError (tool_name d))
  | None => inr (reg ++ [d])
  end.

(** Modelled from the spec: Section 4.1, [list()], the names in registration
    order. *)
Definition list_tools (reg : list ToolDescriptor) : list string :=
  tool_name <$> reg.

(** Modelled from the spec: the request and result envelopes of the MCP
    library.  Section 3, CallRequest and CallResult; a result carries
    exactly one of [res_value] and [res_error]. *)
Record CallRequest : Type := mk_request {
  req_id : string;
  toolName : string;
  arguments : gmap string value;
}.

Record CallResult : Type := mk_result {
  res_id : string;
  res_value : option value;
  res_error : option string;
}.

Definition result_value (id : string) (v : value) : CallResult :=
  mk_result id (Some v) None.

Definition result_error (id : string) (msg : string) : CallResult :=
  mk_result id None (Some msg).

(** Modelled from the spec: argument validation is done by the MCP library.
    Section 4.2: a missing required field or a value of the wrong kind is
    reported with the field; a parameter with a default may be absent. *)
Fixpoint validate (schema : list param) (args : gmap string value)
    : string + gmap string value :=
  match schema with
  | [] => inr ∅
  | p :: rest =>
      match validate rest args with
      | inl reason => inl reason
      | inr bound =>
          match args !! p_name p, p_default p with
          | Some v, _ =>
              if bool_decide (kind_of v = p_kind p)
              then inr (<[p_name p := v]> bound)
              else inl ("wrong kind of value: " +:+ p_name p)
          | None, Some d => inr (<[p_name p := d]> bound)
          | None, None => inl ("missing required field: " +:+ p_name p)
          end
      end
  end.

(** Modelled from the spec: the call handler of the MCP library is not in
    this repository.  Section 4.2: on a registry miss the result is the
    error [unknown tool: <name>]; a validation failure, an error signalled
    by the handler and any other fault of the handler all become an error
    result; nothing is raised to the session. *)
Definition dispatch (reg : list ToolDescriptor) (request : CallRequest)
    : M lib_call CallResult :=
  match lookup_tool (toolName request) reg with
  | None =>
      mret (result_error (req_id request)
              ("unknown tool: " +:+ toolName request))
  | Some d =>
      match validate (inputSchema d) (arguments request) with
      | inl reason => mret (result_error (req_id request) reason)
      | inr args =>
          match handler d args with
          | (tr, inl e) => (tr, inr (result_error (req_id request) (exn_msg e)))
          | (tr, inr v) => (tr, inr (result_value (req_id request) v))
          end
      end
  end.

(** ** Sessions *)

(** Modelled from the spec: Section 3, the states of a session and the
    messages it receives and writes. *)
Inductive session_state : Type := Initializing | Ready | Closed.

Inductive message : Type :=
  | MInitialize (id : string)
  | MCall (request : CallRequest)
  | MClose.

Inductive out_message : Type :=
  | OEndpoint (url : string)
  | OInitialized (id name instructions : string) (tools : list string)
  | OResult (result : CallResult)
  | OProtocolError.

(** Lines 25-28. *)
Definition server_name : string := "utility-server".
Definition server_instructions : string :=
  "这是一个通用工具服务器，提供时间查询、时间戳转换等基础能力。".

(** Modelled from the spec: the session loop of the MCP library is not in
    this repository.  Section 4.3: only an initialize request leaves
    Initializing; in Ready a call is dispatched and answered, a close
    notification closes the session; a message out of sequence is reported
    and leaves the state in place; Closed is terminal. *)
Definition session_step (reg : list ToolDescriptor) (st : session_state)
    (m : message) : M lib_call (session_state * list out_message) :=
  match st, m with
  | Initializing, MInitialize id =>
      mret (Ready,
            [OInitialized id server_name server_instructions (list_tools reg)])
  | Initializing, _ => mret (Initializing, [OProtocolError])
  | Ready, MCall request =>
      r ← dispatch reg request; mret (Ready, [OResult r])
  | Ready, MClose => mret (Closed, [])
  | Ready, MInitialize _ => mret (Ready, [OProtocolError])
  | Closed, _ => mret (Closed, [])
  end.

(** ** The networked transport: live sessions *)

(** Modelled from the spec: Section 3, Session and SessionRegistry; a
    session owns an inbound and an outbound channel. *)
Record session : Type := mk_session {
  s_state : session_state;
  s_inbound : list message;
  s_outbound : list out_message;
}.

(** The tool registry the server was started with, and the table of live
    sessions keyed by session id. *)
Record server : Type := mk_server {
  srv_tools : list ToolDescriptor;
  srv_sessions : gmap string session;
}.

(** Modelled from the spec: the SSE transport of the MCP library is not in
    this repository.  Section 4.5: a GET on the stream endpoint creates a
    session under a fresh id and immediately emits the endpoint URL. *)
Definition open_stream (sid : string) (srv : server) : option server :=
  match srv_sessions srv !! sid with
  | Some _ => None
  | None =>
      Some (mk_server (srv_tools srv)
              (<[sid := mk_session Initializing []
                          [OEndpoint (announced_endpoint sid)]]>
                 (srv_sessions srv)))
  end.

(** Modelled from the spec: the POST side of the SSE transport.  Sections
    4.5 and 6: the token is the session-identifying parameter of the URL
    ([None] when the request has none), the body is the decoded message
    ([None] when it cannot be decoded).  A hit with a decoded message is
    queued and acknowledged with 202; an unknown session and a malformed
    request are client errors (404 and 400 stand for the 4xx class). *)
Definition post_message (token : option string) (body : option message)
    (srv : server) : server * Z :=
  match token with
  | None => (srv, 400)
  | Some sid =>
      match srv_sessions srv !! sid with
      | None => (srv, 404)
      | Some s =>
          match body with
          | None => (srv, 400)
          | Some m =>
              (mk_server (srv_tools srv)
                 (<[sid := mk_session (s_state s) (s_inbound s ++ [m])
                             (s_outbound s)]> (srv_sessions srv)),
               202)
          end
      end
  end.

(** Modelled from the spec: Section 4.5, closing the GET connection removes
    the session from the table. *)
Definition close_stream (sid : string) (srv : server) : server :=
  mk_server (srv_tools srv) (delete sid (srv_sessions srv)).

(** Modelled from the spec: Sections 4.3 and 4.5, one turn of the loop of
    session [sid]: take the next inbound message, step the state machine,
    write the answers to the stream; a session that reaches Closed leaves
    the table. *)
Definition run_session (sid : string) (srv : server) : M lib_call server :=
  match srv_sessions srv !! sid with
  | Some (mk_session st (m :: rest) out) =>
      '(st', answers) ← session_step (srv_tools srv) st m;
      mret (mk_server (srv_tools srv)
              (match st' with
               | Closed => delete sid (srv_sessions srv)
               | _ => <[sid := mk_session st' rest (out ++ answers)]>
                        (srv_sessions srv)
               end))
  | _ => mret srv
  end.

(** Modelled from the spec: Section 4.5, everything that happens once the
    server is serving: streams open and close, messages are posted, session
    loops take turns. *)
Inductive serve_op : Type :=
  | OpOpen (sid : string)
  | OpPost (token : option string) (body : option message)
  | OpClose (sid : string)
  | OpRun (sid : string).

Definition serve_step (op : serve_op) (srv : server) : M lib_call server :=
  match op with
  | OpOpen sid => mret (default srv (open_stream sid srv))
  | OpPost token body => mret (fst (post_message token body srv))
  | OpClose sid => mret (close_stream sid srv)
  | OpRun sid => run_session sid srv
  end.

Fixpoint serve (ops : list serve_op) (srv : server) : M lib_call server :=
  match ops with
  | [] => mret srv
  | op :: rest => srv' ← serve_step op srv; serve rest srv'
  end.

(** ** Start-up: module import and [main] *)

Inductive proc_effect : Type :=
  | NewFastMCP (name instructions : string)
  | RegisterTool (name : string)
  | ParseArgs
  | NewSseServerTransport (endpoint : string)
  | PrintStderr (line : string)
  | UvicornRun (mcp : list ToolDescriptor) (host : string) (port : Z)
  | McpRun (mcp : list ToolDescriptor) (transport : string).

(** The namespace [parser.parse_args()] returns. *)
Record Namespace : Type := mk_args {
  remote : bool;
  host : string;
  port : Z;
}.

(** The options present on the command line, as [argparse] recognised
    them; [--port] already converted by [type=int]. *)
Record command_line : Type := mk_cli {
  cli_remote : bool;
  cli_host : option string;
  cli_port : option Z;
}.

(** Lines 206-224: [store_true] for [--remote], the defaults
    ["0.0.0.0"] and [8000] for [--host] and [--port]. *)
Definition parse_args (cli : command_line) : Namespace :=
  mk_args (cli_remote cli)
          (default "0.0.0.0" (cli_host cli))
          (default 8000 (cli_port cli)).

(** [@mcp.tool()] applied to one function. *)
Definition mcp_tool (d : ToolDescriptor) (mcp : list ToolDescriptor)
    : M proc_effect (list ToolDescriptor) :=
  call (RegisterTool (tool_name d)) (register d mcp).

(** Lines 120-185. *)
Definition run_sse_server (mcp : list ToolDescriptor) (host : string)
    (port : Z) : M proc_effect () :=
  _ ← call (NewSseServerTransport sse_transport_endpoint) (inr ());
  _ ← call (PrintStderr "🌐 启动远程MCP服务器...") (inr ());
  _ ← call (PrintStderr ("   地址: http://" +:+ host +:+ ":" +:+ pretty port))
           (inr ());
  _ ← call (PrintStderr ("   SSE端点: http://" +:+ host +:+ ":" +:+ pretty port
                         +:+ "/sse")) (inr ());
  _ ← call (PrintStderr ("   消息端点: http://" +:+ host +:+ ":" +:+ pretty port
                         +:+ "/messages")) (inr ());
  call (UvicornRun mcp host port) (inr ()).

(** Lines 193-233. *)
Definition main (mcp : list ToolDescriptor) (cli : command_line)
    : M proc_effect () :=
  args ← call ParseArgs (inr (parse_args cli));
  if remote args then run_sse_server mcp (host args) (port args)
  else call (McpRun mcp "stdio") (inr ()).

Section process.
Context `{Platform}.

(** Executing the module top to bottom: lines 25-28, then the three
    decorated definitions. *)
Definition module_import : M proc_effect (list ToolDescriptor) :=
  mcp ← call (NewFastMCP server_name server_instructions) (inr []);
  mcp ← mcp_tool get_current_time_tool mcp;
  mcp ← mcp_tool get_timestamp_tool mcp;
  mcp_tool format_timestamp_tool mcp.

(** The process: import, then [main()] (lines 237-238). *)
Definition process (cli : command_line) : M proc_effect (list ToolDescriptor) :=
  mcp ← module_import;
  _ ← main mcp cli;
  mret mcp.
End process.

(** ** A reference platform

    A concrete instance of the collaborators on which the tools can be run:
    a three-entry zone table with fixed offsets, the proleptic Gregorian
    calendar, the year range 1..9999 of [datetime], and a 64-bit [time_t]. *)

Record civil : Type := mk_civil {
  c_year : Z; c_month : Z; c_day : Z;
  c_hour : Z; c_minute : Z; c_second : Z;
  c_tzname : string;
}.

(** Year, month and day of the day number [days] counted from 1970-01-01. *)
Definition civil_from_days (days : Z) : Z * Z * Z :=
  let z := days + 719468 in
  let era := z / 146097 in
  let doe := z - era * 146097 in
  let yoe := (doe - doe / 1460 + doe / 36524 - doe / 146096) / 365 in
  let doy := doe - (365 * yoe + yoe / 4 - yoe / 100) in
  let mp := (5 * doy + 2) / 153 in
  let d := doy - (153 * mp + 2) / 5 + 1 in
  let m := if mp <? 10 then mp + 3 else mp - 9 in
  let y := yoe + era * 400 in
  (if m <=? 2 then y + 1 else y, m, d).

Fixpoint zero_pad (width : nat) (s : string) : string :=
  match width with
  | O => s
  | S w => if bool_decide (String.length s < S w)%nat
           then zero_pad w ("0" +:+ s) else s
  end.

Definition directive (dt : civil) (c : ascii) : string :=
  if bool_decide (c = "Y"%char) then zero_pad 4 (pretty (c_year dt))
  else if bool_decide (c = "m"%char) then zero_pad 2 (pretty (c_month dt))
  else if bool_decide (c = "d"%char) then zero_pad 2 (pretty (c_day dt))
  else if bool_decide (c = "H"%char) then zero_pad 2 (pretty (c_hour dt))
  else if bool_decide (c = "M"%char) then zero_pad 2 (pretty (c_minute dt))
  else if bool_decide (c = "S"%char) then zero_pad 2 (pretty (c_second dt))
  else if bool_decide (c = "Z"%char) then c_tzname dt
  else String "%"%char (String c EmptyString).

Fixpoint strftime_ref (dt : civil) (fmt : string) : string :=
  match fmt with
  | EmptyString => EmptyString
  | String a rest =>
      match rest with
      | String c rest' =>
          if bool_decide (a = "%"%char)
          then directive dt c +:+ strftime_ref dt rest'
          else String a (strftime_ref dt rest)
      | EmptyString => String a EmptyString
      end
  end.

Definition zone_table : gmap string (Z * string) :=
  {[ "UTC" := (0, "UTC");
     "Asia/Shanghai" := (28800, "CST");
     "Asia/Tokyo" := (32400, "JST") ]}.

Definition ZoneInfo_ref (key : string) : exn + (Z * string) :=
  match zone_table !! key with
  | Some tz => inr tz
  | None =>
      match key with
      | String "/"%char _ =>
          inl (mk_exn ValueError
                 ("ZoneInfo keys may not be absolute paths, got: " +:+ key))
      | _ =>
          inl (mk_exn ZoneInfoNotFoundError
                 ("'No time zone found with key " +:+ key +:+ "'"))
      end
  end.

Definition civil_of (timestamp : Z) (tz : Z * string) : civil :=
  let local := timestamp + fst tz in
  let '(y, m, d) := civil_from_days (local / 86400) in
  let secs := local mod 86400 in
  mk_civil y m d (secs / 3600) (secs mod 3600 / 60) (secs mod 60) (snd tz).

Definition fromtimestamp_ref (timestamp : Z) (tz : Z * string)
    : exn + civil :=
  if bool_decide (timestamp < - 2 ^ 63 ∨ 2 ^ 63 ≤ timestamp)
  then inl (mk_exn OverflowError "timestamp out of range for platform time_t")
  else
    let dt := civil_of timestamp tz in
    if bool_decide (c_year dt < - 2 ^ 31 ∨ 2 ^ 31 ≤ c_year dt)
    then inl (mk_exn OSError
                "[Errno 75] Value too large for defined data type")
    else if bool_decide (c_year dt < 1 ∨ 9999 < c_year dt)
    then inl (mk_exn ValueError
                ("year " +:+ pretty (c_year dt) +:+ " is out of range"))
    else inr dt.

(** The clock of the reference platform stands at 2023-11-14 22:13:20 UTC. *)
Definition reference_clock : Z := 1700000000.

#[global] Instance reference_platform : Platform := {|
  tzinfo := Z * string;
  datetime := civil;
  ZoneInfo := ZoneInfo_ref;
  datetime_now := civil_of reference_clock;
  datetime_now_local_timestamp := reference_clock;
  datetime_fromtimestamp := fromtimestamp_ref;
  datetime_strftime := strftime_ref;
|}.


(** ** Recognised names, failed lookups, out-of-range timestamps *)

Section recognition.
Context `{Platform}.

(** A timezone name the zone lookup resolves. *)
Definition recognised (timezone : string) : Prop :=
  ∃ tz, ZoneInfo timezone = inr tz.

(** Not a recognised timezone name: the zone lookup fails, in whatever
    way. *)
Definition unrecognised (timezone : string) : Prop :=
  ∃ e, ZoneInfo timezone = inl e.

(** The zone lookup reports the name as not found, the one failure the
    handlers catch. *)
Definition not_found (timezone : string) : Prop :=
  ∃ e, ZoneInfo timezone = inl e ∧ exn_class e = ZoneInfoNotFoundError.

(** The conversion of [timestamp] fails with an out-of-range condition. *)
Definition out_of_range (timestamp : Z) (tz : tzinfo) : Prop :=
  ∃ e, datetime_fromtimestamp timestamp tz = inl e ∧
       (issubclass (exn_class e) OSError
        || issubclass (exn_class e) OverflowError) = true.
End recognition.

Definition registered_names : list string :=
  ["get_current_time"; "get_timestamp"; "format_timestamp"].

Definition is_serve (ev : proc_effect) : bool :=
  match ev with
  | UvicornRun _ _ _ | McpRun _ _ => true
  | _ => false
  end.

Definition is_register (ev : proc_effect) : bool :=
  match ev with RegisterTool _ => true | _ => false end.

Definition is_parse_args (ev : proc_effect) : bool :=
  match ev with ParseArgs => true | _ => false end.

Definition not_found_response : list asgi_effect :=
  [Send (HttpResponseStart 404 [(b "content-type", b "text/plain")]);
   Send (HttpResponseBody (b "Not Found"))].

(** The call [ev] with the scope it was handed replaced by [scope]; a send
    carries no scope. *)
Definition retarget (scope : gmap string string) (ev : asgi_effect)
    : asgi_effect :=
  match ev with
  | Send e => Send e
  | HandleSse _ => HandleSse scope
  | HandlePostMessage _ => HandlePostMessage scope
  end.

(** * Properties *)

(** ** The effect monad *)

Lemma mentions_middle (pre s post : string) : mentions (pre +:+ s +:+ post) s.
Proof. by exists pre, post. Qed.

Lemma mentions_end (pre s : string) : mentions (pre +:+ s) s.
Proof.
  exists pre, EmptyString.
  assert (Hnil : ∀ t : string, t +:+ EmptyString = t).
  { induction t as [|a t IH]; [done|].
    change (String a (t +:+ EmptyString) = String a t). by rewrite IH. }
  by rewrite Hnil.
Qed.

Lemma issubclass_not_found (c : exc_class) :
  c = ZoneInfoNotFoundError →
  existsb (issubclass c) [ZoneInfoNotFoundError] = true.
Proof. by intros ->. Qed.

(** A [ValueError] is caught by neither [except] clause of the module. *)
Lemma value_error_not_caught :
  existsb (issubclass ValueError) [OSError; OverflowError] = false ∧
  existsb (issubclass ValueError) [ZoneInfoNotFoundError] = false.
Proof. by split. Qed.

Lemma existsb_range (c : exc_class) :
  existsb (issubclass c) [OSError; OverflowError]
  = issubclass c OSError || issubclass c OverflowError.
Proof. simpl. by rewrite orb_false_r. Qed.

(** ** The time tools *)

Lemma not_caught_by_lookup (c : exc_class) :
  issubclass c ZoneInfoNotFoundError = false →
  existsb (issubclass c) [ZoneInfoNotFoundError] = false.
Proof. intros Hc. cbn. by rewrite Hc. Qed.

(** An exception class is [ZoneInfoNotFoundError] or is not caught by an
    [except ZoneInfoNotFoundError] clause. *)
Lemma caught_or_not (c : exc_class) :
  c = ZoneInfoNotFoundError ∨ issubclass c ZoneInfoNotFoundError = false.
Proof. destruct c; (by left) || (by right). Qed.

Section tool_properties.
Context `{Platform}.

(** Whatever the zone lookup raises, the lookup step raises too, after that
    one call. *)
Lemma zone_lookup_failed (timezone : string) (e replacement : exn) :
  ZoneInfo timezone = inl e →
  try_except (call (CallZoneInfo timezone) (ZoneInfo timezone))
    [ZoneInfoNotFoundError] (λ _, raise replacement)
  = ([CallZoneInfo timezone],
     inl (if existsb (issubclass (exn_class e)) [ZoneInfoNotFoundError]
          then replacement else e)).
Proof.
  intros He. unfold try_except, call. rewrite He.
  by destruct (existsb (issubclass (exn_class e)) [ZoneInfoNotFoundError]).
Qed.


(** The zone lookup step shared by both handlers. *)
Lemma zone_lookup_not_found (timezone msg : string) :
  not_found timezone →
  try_except (call (CallZoneInfo timezone) (ZoneInfo timezone))
    [ZoneInfoNotFoundError] (λ _, raise (mk_exn ValueError msg))
  = ([CallZoneInfo timezone], inl (mk_exn ValueError msg)).
Proof.
  intros (e & He & Hc). unfold try_except, call. rewrite He.
  by rewrite (issubclass_not_found _ Hc).
Qed.

Lemma zone_lookup_recognised (timezone : string) (tz : tzinfo)
    (h : exn → M lib_call tzinfo) :
  ZoneInfo timezone = inr tz →
  try_except (call (CallZoneInfo timezone) (ZoneInfo timezone))
    [ZoneInfoNotFoundError] h
  = ([CallZoneInfo timezone], inr tz).
Proof. intros Hz. unfold try_except, call. by rewrite Hz. Qed.

Lemma get_current_time_not_found (timezone : string) :
  not_found timezone →
  get_current_time timezone
  = ([CallZoneInfo timezone],
     inl (mk_exn ValueError
            ("无效的时区名称: " +:+ timezone +:+ "。"
             +:+ "请使用标准时区名称，如 'Asia/Shanghai', 'UTC', 'America/New_York' 等。"))).
Proof.
  intros Hu. unfold get_current_time.
  by rewrite (zone_lookup_not_found _ _ Hu).
Qed.

Lemma get_current_time_recognised (timezone : string) (tz : tzinfo) :
  ZoneInfo timezone = inr tz →
  get_current_time timezone
  = ([CallZoneInfo timezone; CallNow; CallStrftime time_format],
     inr (datetime_strftime (datetime_now tz) time_format)).
Proof.
  intros Hz. unfold get_current_time.
  by rewrite (zone_lookup_recognised _ _ _ Hz).
Qed.

Lemma format_timestamp_not_found (timestamp : Z) (timezone : string) :
  not_found timezone →
  format_timestamp timestamp timezone
  = ([CallZoneInfo timezone],
     inl (mk_exn ValueError ("无效的时区名称: " +:+ timezone))).
Proof.
  intros Hu. unfold format_timestamp.
  by rewrite (zone_lookup_not_found _ _ Hu).
Qed.

Lemma format_timestamp_recognised (timestamp : Z) (timezone : string)
    (tz : tzinfo) :
  ZoneInfo timezone = inr tz →
  format_timestamp timestamp timezone
  = match datetime_fromtimestamp timestamp tz with
    | inr dt =>
        ([CallZoneInfo timezone; CallFromTimestamp timestamp;
          CallStrftime time_format],
         inr (datetime_strftime dt time_format))
    | inl e =>
        ([CallZoneInfo timezone; CallFromTimestamp timestamp],
         inl (if issubclass (exn_class e) OSError
                 || issubclass (exn_class e) OverflowError
              then mk_exn ValueError
                     ("无效的时间戳: " +:+ pretty timestamp +:+ "。错误: "
                      +:+ exn_msg e)
              else e))
    end.
Proof.
  intros Hz. unfold format_timestamp.
  rewrite (zone_lookup_recognised _ _ _ Hz).
  unfold try_except, call, mbind, M_bind.
  destruct (datetime_fromtimestamp timestamp tz) as [e|dt]; [|done].
  rewrite existsb_range.
  by destruct (issubclass (exn_class e) OSError
               || issubclass (exn_class e) OverflowError).
Qed.

(** C2, as amended: every timezone name falls in one of three cases, and
    for a name that is not recognised neither handler returns a value.  When
    the lookup reports the name as not found, both [get_current_time] and
    [format_timestamp] raise a [ValueError] whose message contains the name,
    instead of letting the lookup failure through.  When the lookup fails
    in any other way, both handlers let that failure through unchanged.
    When the name is recognised, [get_current_time] returns the formatted
    current time. *)
Theorem timezone_lookup_outcomes (timezone : string) :
  (recognised timezone ∨ not_found timezone ∨
   ∃ e, ZoneInfo timezone = inl e ∧
        issubclass (exn_class e) ZoneInfoNotFoundError = false) ∧
  (unrecognised timezone →
     ∀ s, outcome (get_current_time timezone) ≠ inr s ∧
          ∀ timestamp, outcome (format_timestamp timestamp timezone) ≠ inr s) ∧
  (not_found timezone →
     (∃ msg, outcome (get_current_time timezone)
             = inl (mk_exn ValueError msg) ∧ mentions msg timezone) ∧
     (∀ timestamp, ∃ msg,
         outcome (format_timestamp timestamp timezone)
         = inl (mk_exn ValueError msg) ∧ mentions msg timezone)) ∧
  (∀ e, ZoneInfo timezone = inl e →
     issubclass (exn_class e) ZoneInfoNotFoundError = false →
     outcome (get_current_time timezone) = inl e ∧
     ∀ timestamp, outcome (format_timestamp timestamp timezone) = inl e) ∧
  (∀ tz, ZoneInfo timezone = inr tz →
     outcome (get_current_time timezone)
     = inr (datetime_strftime (datetime_now tz) time_format)).
Proof.
  split; [|split; [|split; [|split]]].
  - destruct (ZoneInfo timezone) as [e|tz] eqn:Hz.
    + right. destruct (caught_or_not (exn_class e)) as [Hc|Hc].
      * left. by exists e.
      * right. by exists e.
    + left. by exists tz.
  - intros [e He] s. split; [|intros timestamp].
    + unfold get_current_time. by rewrite (zone_lookup_failed _ _ _ He).
    + unfold format_timestamp. by rewrite (zone_lookup_failed _ _ _ He).
  - intros Hu. split.
    + eexists. rewrite (get_current_time_not_found _ Hu).
      split; [done | apply mentions_middle].
    + intros timestamp. eexists.
      rewrite (format_timestamp_not_found _ _ Hu).
      split; [done | apply mentions_end].
  - intros e He Hc. split; [|intros timestamp].
    + unfold get_current_time. rewrite (zone_lookup_failed _ _ _ He).
      by rewrite (not_caught_by_lookup _ Hc).
    + unfold format_timestamp. rewrite (zone_lookup_failed _ _ _ He).
      by rewrite (not_caught_by_lookup _ Hc).
  - intros tz Hz. by rewrite (get_current_time_recognised _ _ Hz).
Qed.

(** C3: with a valid timezone, a timestamp whose conversion fails with
    [OSError] or [OverflowError] makes [format_timestamp] raise a
    [ValueError] whose message contains the timestamp; no [OSError] or
    [OverflowError] leaves the handler; a timestamp that converts gives the
    formatted string. *)
Theorem out_of_range_timestamp_is_value_error (timestamp : Z)
    (timezone : string) (tz : tzinfo) :
  ZoneInfo timezone = inr tz →
  (out_of_range timestamp tz →
     ∃ msg, outcome (format_timestamp timestamp timezone)
            = inl (mk_exn ValueError msg) ∧
            mentions msg (pretty timestamp)) ∧
  (∀ e, outcome (format_timestamp timestamp timezone) = inl e →
        issubclass (exn_class e) OSError = false ∧
        issubclass (exn_class e) OverflowError = false) ∧
  (∀ dt, datetime_fromtimestamp timestamp tz = inr dt →
         outcome (format_timestamp timestamp timezone)
         = inr (datetime_strftime dt time_format)).
Proof.
  intros Hz. rewrite (format_timestamp_recognised _ _ _ Hz).
  split; [|split].
  - intros (e & He & Hc). rewrite He, Hc. eexists.
    split; [done | apply mentions_middle].
  - intros e. destruct (datetime_fromtimestamp timestamp tz) as [e'|dt];
      [|done].
    destruct (issubclass (exn_class e') OSError
              || issubclass (exn_class e') OverflowError) eqn:Hc;
      cbn; intros [= <-]; [done|].
    by apply orb_false_elim in Hc.
  - by intros dt ->.
Qed.

(** C10, as amended: [format_timestamp] checks the timezone first.  Whenever
    the zone lookup fails, whatever the timestamp (in particular an
    out-of-range one), the lookup is the only call made, so the conversion of
    the timestamp is never attempted, and the exception raised is decided by
    the lookup alone: the invalid-timezone [ValueError] when the name is
    reported as not found, the failure of the lookup itself otherwise. *)
Theorem timezone_checked_before_timestamp (timestamp : Z)
    (timezone : string) (e : exn) :
  ZoneInfo timezone = inl e →
  trace (format_timestamp timestamp timezone) = [CallZoneInfo timezone] ∧
  (∀ ts, CallFromTimestamp ts ∉ trace (format_timestamp timestamp timezone)) ∧
  (exn_class e = ZoneInfoNotFoundError →
     outcome (format_timestamp timestamp timezone)
     = inl (mk_exn ValueError ("无效的时区名称: " +:+ timezone))) ∧
  (issubclass (exn_class e) ZoneInfoNotFoundError = false →
     outcome (format_timestamp timestamp timezone) = inl e).
Proof.
  intros He. unfold format_timestamp. rewrite (zone_lookup_failed _ _ _ He).
  split; [done|]. split; [|split].
  - intros ts. cbn. by intros [=]%list_elem_of_singleton.
  - intros Hc. by rewrite (issubclass_not_found _ Hc).
  - intros Hc. by rewrite (not_caught_by_lookup _ Hc).
Qed.
End tool_properties.

(** The reference platform separates the cases above. *)
Example format_epoch_utc :
  outcome (format_timestamp 0 "UTC") = inr "1970-01-01 00:00:00 UTC".
Proof. reflexivity. Qed.

Example format_leap_day_shanghai :
  outcome (format_timestamp 951782400 "Asia/Shanghai")
  = inr "2000-02-29 08:00:00 CST".
Proof. reflexivity. Qed.

Example malformed_key_passes_through :
  outcome (get_current_time "/etc/localtime")
  = inl (mk_exn ValueError
           "ZoneInfo keys may not be absolute paths, got: /etc/localtime").
Proof. reflexivity. Qed.

Example year_out_of_range_passes_through :
  outcome (format_timestamp (10 ^ 12) "UTC")
  = inl (mk_exn ValueError "year 33658 is out of range").
Proof. reflexivity. Qed.

Lemma reference_not_found : not_found "Mars/Olympus".
Proof. eexists. split; reflexivity. Defined.

Lemma reference_unrecognised : unrecognised "/etc/localtime".
Proof. eexists. reflexivity. Defined.

Lemma reference_out_of_range (tz : Z * string) :
  @out_of_range reference_platform (10 ^ 19) tz.
Proof. eexists. split; reflexivity. Defined.

Lemma timezone_lookup_outcomes_witness :
  not_found "Mars/Olympus" ∧
  ((∃ msg, outcome (get_current_time "Mars/Olympus")
           = inl (mk_exn ValueError msg) ∧ mentions msg "Mars/Olympus") ∧
   (∀ timestamp, ∃ msg,
       outcome (format_timestamp timestamp "Mars/Olympus")
       = inl (mk_exn ValueError msg) ∧ mentions msg "Mars/Olympus")) ∧
  ZoneInfo "/etc/localtime"
  = inl (mk_exn ValueError
           "ZoneInfo keys may not be absolute paths, got: /etc/localtime") ∧
  outcome (get_current_time "/etc/localtime")
  = inl (mk_exn ValueError
           "ZoneInfo keys may not be absolute paths, got: /etc/localtime") ∧
  outcome (get_current_time "UTC") = inr "2023-11-14 22:13:20 UTC".
Proof.
  split; [exact reference_not_found|]. split; [|split; [reflexivity|split]].
  - exact (proj1 (proj2 (proj2 (timezone_lookup_outcomes "Mars/Olympus")))
             reference_not_found).
  - exact (proj1 (proj1 (proj2 (proj2 (proj2
             (timezone_lookup_outcomes "/etc/localtime"))))
             (mk_exn ValueError
                "ZoneInfo keys may not be absolute paths, got: /etc/localtime")
             eq_refl eq_refl)).
  - exact (proj2 (proj2 (proj2 (proj2 (timezone_lookup_outcomes "UTC"))))
             (0, "UTC") eq_refl).
Defined.

(** C2 as stated fails: [/etc/localtime] is not a recognised timezone name,
    yet [get_current_time] lets the failure of the lookup through instead of
    raising its own error. *)
Lemma lookup_failure_let_through :
  ¬ (∀ timezone : string,
       unrecognised timezone →
       ∃ msg, outcome (get_current_time timezone)
              = inl (mk_exn ValueError msg) ∧
              mentions msg timezone ∧
              ∀ e, ZoneInfo timezone = inl e →
                   outcome (get_current_time timezone) ≠ inl e).
Proof.
  intros Hall.
  destruct (Hall "/etc/localtime" reference_unrecognised)
    as (msg & _ & _ & Hkept).
  by apply (Hkept (mk_exn ValueError
              "ZoneInfo keys may not be absolute paths, got: /etc/localtime")).
Qed.

Lemma out_of_range_timestamp_witness :
  ZoneInfo "UTC" = inr (0, "UTC") ∧
  out_of_range (10 ^ 19) (0, "UTC") ∧
  ∃ msg, outcome (format_timestamp (10 ^ 19) "UTC")
         = inl (mk_exn ValueError msg) ∧ mentions msg "10000000000000000000".
Proof.
  split; [reflexivity|]. split; [apply reference_out_of_range|].
  exact (proj1 (out_of_range_timestamp_is_value_error (10 ^ 19) "UTC"
                  (0, "UTC") eq_refl)
           (reference_out_of_range (0, "UTC"))).
Defined.

Lemma timezone_checked_before_timestamp_witness :
  ZoneInfo "Mars/Olympus"
  = inl (mk_exn ZoneInfoNotFoundError
           "'No time zone found with key Mars/Olympus'") ∧
  (∀ tz, out_of_range (10 ^ 19) tz) ∧
  (∀ ts, CallFromTimestamp ts
         ∉ trace (format_timestamp (10 ^ 19) "Mars/Olympus")) ∧
  outcome (format_timestamp (10 ^ 19) "Mars/Olympus")
  = inl (mk_exn ValueError "无效的时区名称: Mars/Olympus").
Proof.
  assert (Hz : ZoneInfo "Mars/Olympus"
               = inl (mk_exn ZoneInfoNotFoundError
                        "'No time zone found with key Mars/Olympus'"))
    by reflexivity.
  split; [exact Hz|]. split; [exact reference_out_of_range|].
  destruct (timezone_checked_before_timestamp (10 ^ 19) "Mars/Olympus" _ Hz)
    as (_ & Hnever & Hfound & _).
  split; [exact Hnever | exact (Hfound eq_refl)].
Defined.

(** C10 as stated fails: for [/etc/localtime], not a recognised timezone
    name, and a timestamp out of range in every zone, the error raised is the
    one the lookup raised, not the invalid-timezone error of the handler. *)
Lemma lookup_error_is_not_invalid_timezone :
  ¬ (∀ (timestamp : Z) (timezone : string),
       unrecognised timezone →
       (∀ tz, out_of_range timestamp tz) →
       outcome (format_timestamp timestamp timezone)
       = inl (mk_exn ValueError ("无效的时区名称: " +:+ timezone))).
Proof.
  intros Hall.
  specialize (Hall (10 ^ 19) "/etc/localtime" reference_unrecognised
                reference_out_of_range).
  discriminate Hall.
Qed.

(** ** The router *)

(** What [app] does with an HTTP scope, as a function of the path and of
    the method the router reads ([GET] when the scope has none). *)
Lemma app_http (scope : gmap string string) (path : string) :
  scope !! "type" = Some "http" →
  scope !! "path" = Some path →
  app scope
  = if bool_decide (path = "/sse")
       && bool_decide (default "GET" (scope !! "method") = "GET")
    then ([HandleSse scope], inr ())
    else if bool_decide (path = "/messages")
            && bool_decide (default "GET" (scope !! "method") = "POST")
    then ([HandlePostMessage scope], inr ())
    else (not_found_response, inr ()).
Proof.
  intros Hty Hpath. unfold app, getitem. rewrite Hty, Hpath. cbn.
  destruct (bool_decide (path = "/sse")
            && bool_decide (default "GET" (scope !! "method") = "GET"));
    [done|].
  by destruct (bool_decide (path = "/messages")
               && bool_decide (default "GET" (scope !! "method") = "POST")).
Qed.

Lemma route_cases (method path : string) :
  (bool_decide (path = "/sse") && bool_decide (method = "GET") = true
   ↔ (method, path) = ("GET", "/sse")) ∧
  (bool_decide (path = "/messages") && bool_decide (method = "POST") = true
   ↔ (method, path) = ("POST", "/messages")).
Proof.
  split; rewrite andb_true_iff, !bool_decide_eq_true; split.
  - by intros [-> ->].
  - by intros [= -> ->].
  - by intros [-> ->].
  - by intros [= -> ->].
Qed.

(** C1: on an HTTP scope the router hands the exchange to the SSE handler
    exactly for [GET /sse], to the message handler exactly for
    [POST /messages], and in every other case sends a 404 response with a
    plain-text body and does nothing else. *)
Theorem app_routes (scope : gmap string string) (method path : string) :
  scope !! "type" = Some "http" →
  scope !! "path" = Some path →
  default "GET" (scope !! "method") = method →
  (app scope = ([HandleSse scope], inr ())
   ↔ (method, path) = ("GET", "/sse")) ∧
  (app scope = ([HandlePostMessage scope], inr ())
   ↔ (method, path) = ("POST", "/messages")) ∧
  ((method, path) ≠ ("GET", "/sse") →
   (method, path) ≠ ("POST", "/messages") →
   app scope
   = ([Send (HttpResponseStart 404 [(b "content-type", b "text/plain")]);
       Send (HttpResponseBody (b "Not Found"))], inr ())).
Proof.
  intros Hty Hpath Hm. rewrite (app_http _ _ Hty Hpath), Hm.
  destruct (route_cases method path) as [Hsse Hpost].
  destruct (bool_decide (path = "/sse") && bool_decide (method = "GET"))
    eqn:E1.
  - assert (Heq : (method, path) = ("GET", "/sse")) by by apply Hsse.
    injection Heq as -> ->. by repeat split.
  - assert (N1 : (method, path) ≠ ("GET", "/sse")).
    { intros Heq%Hsse. congruence. }
    destruct (bool_decide (path = "/messages")
              && bool_decide (method = "POST")) eqn:E2.
    + assert (Heq : (method, path) = ("POST", "/messages")) by by apply Hpost.
      injection Heq as -> ->. by repeat split.
    + assert (N2 : (method, path) ≠ ("POST", "/messages")).
      { intros Heq%Hpost. congruence. }
      by repeat split.
Qed.

Lemma app_routes_witness :
  let scope := http_scope "DELETE" "/sse" in
  scope !! "type" = Some "http" ∧
  scope !! "path" = Some "/sse" ∧
  default "GET" (scope !! "method") = "DELETE" ∧
  app scope = (not_found_response, inr ()).
Proof.
  intros scope.
  assert (Hty : scope !! "type" = Some "http") by reflexivity.
  assert (Hpath : scope !! "path" = Some "/sse") by reflexivity.
  assert (Hm : default "GET" (scope !! "method") = "DELETE") by reflexivity.
  split; [exact Hty|]. split; [exact Hpath|]. split; [exact Hm|].
  apply (proj2 (proj2 (app_routes scope "DELETE" "/sse" Hty Hpath Hm)));
    discriminate.
Defined.

(** C9: a scope whose type is not [http] makes [app] return at once: no
    event is sent and no handler is entered. *)
Theorem app_ignores_non_http (scope : gmap string string) (ty : string) :
  scope !! "type" = Some ty →
  ty ≠ "http" →
  app scope = ([], inr ()).
Proof.
  intros Hty Hne. unfold app, getitem. rewrite Hty. cbn.
  by rewrite bool_decide_eq_true_2.
Qed.

Lemma app_ignores_non_http_witness :
  let scope : gmap string string := {[ "type" := "lifespan" ]} in
  scope !! "type" = Some "lifespan" ∧ "lifespan" ≠ "http" ∧
  app scope = ([], inr ()).
Proof.
  intros scope.
  assert (Hty : scope !! "type" = Some "lifespan") by reflexivity.
  assert (Hne : "lifespan" ≠ "http") by discriminate.
  split; [exact Hty|]. split; [exact Hne|].
  exact (app_ignores_non_http scope "lifespan" Hty Hne).
Defined.

Example websocket_scope_ignored :
  app {[ "type" := "websocket"; "path" := "/sse" ]} = ([], inr ()).
Proof. reflexivity. Qed.

Example missing_method_is_get :
  trace (app {[ "type" := "http"; "path" := "/sse" ]})
  = [HandleSse {[ "type" := "http"; "path" := "/sse" ]}].
Proof. reflexivity. Qed.

Example trailing_slash_not_found :
  app (http_scope "GET" "/sse/") = (not_found_response, inr ()).
Proof. reflexivity. Qed.

Lemma split_announced_endpoint (session_id : string) :
  split_target (announced_endpoint session_id)
  = (sse_transport_endpoint, "session_id=" +:+ session_id).
Proof. reflexivity. Qed.

Lemma announced_scope (session_id : string) :
  http_scope "POST" (announced_endpoint session_id)
  = <["type" := "http"]> (<["method" := "POST"]>
      (<["path" := sse_transport_endpoint]>
        (<["query_string" := "session_id=" +:+ session_id]> ∅))).
Proof. unfold http_scope. by rewrite split_announced_endpoint. Qed.

(** C6: the URL announced when a stream opens has the path [/messages],
    the path the transport was created with and the one path at which the
    router accepts a POST; a client that posts to the announced URL reaches
    the message handler, whatever its session id. *)
Theorem announced_endpoint_is_routed (session_id : string) :
  let scope := http_scope "POST" (announced_endpoint session_id) in
  (∀ srv srv', open_stream session_id srv = Some srv' →
     ∃ s, srv_sessions srv' !! session_id = Some s ∧
          s_outbound s = [OEndpoint (announced_endpoint session_id)]) ∧
  scope !! "path" = Some sse_transport_endpoint ∧
  app scope = ([HandlePostMessage scope], inr ()) ∧
  (∀ (scope' : gmap string string) (path : string),
     scope' !! "type" = Some "http" →
     scope' !! "path" = Some path →
     scope' !! "method" = Some "POST" →
     app scope' = ([HandlePostMessage scope'], inr ())
     ↔ path = sse_transport_endpoint).
Proof.
  intros scope. split; [|split; [|split]].
  - intros srv srv'. unfold open_stream.
    destruct (srv_sessions srv !! session_id); [done|].
    intros [= <-]. eexists. cbn. by rewrite lookup_insert_eq.
  - unfold scope. rewrite announced_scope.
    rewrite lookup_insert_ne, lookup_insert_ne by done.
    by rewrite lookup_insert_eq.
  - assert (Hty : scope !! "type" = Some "http").
    { unfold scope. rewrite announced_scope. by rewrite lookup_insert_eq. }
    assert (Hpath : scope !! "path" = Some sse_transport_endpoint).
    { unfold scope. rewrite announced_scope.
      rewrite lookup_insert_ne, lookup_insert_ne by done.
      by rewrite lookup_insert_eq. }
    assert (Hm : scope !! "method" = Some "POST").
    { unfold scope. rewrite announced_scope.
      rewrite lookup_insert_ne by done. by rewrite lookup_insert_eq. }
    rewrite (app_http _ _ Hty Hpath), Hm. done.
  - intros scope' path Hty Hpath Hm.
    rewrite (app_http _ _ Hty Hpath), Hm. cbn.
    rewrite andb_false_r, andb_true_r. unfold sse_transport_endpoint.
    case_bool_decide; [done|]. split; [by intros [=] | done].
Qed.

Lemma announced_endpoint_witness :
  let scope := http_scope "POST" (announced_endpoint "3f2a") in
  announced_endpoint "3f2a" = "/messages?session_id=3f2a" ∧
  app scope = ([HandlePostMessage scope], inr ()).
Proof.
  intros scope. split; [reflexivity|].
  exact (proj1 (proj2 (proj2 (announced_endpoint_is_routed "3f2a")))).
Defined.

(** ** Dispatch and sessions *)

Lemma bind_outcome {E A B} (m : M E A) (k : A → M E B) :
  outcome (m ≫= k)
  = match outcome m with
    | inl e => inl e
    | inr a => outcome (k a)
    end.
Proof.
  destruct m as [tr [e|a]]; [done|]. unfold mbind, M_bind, outcome. cbn.
  by destruct (k a).
Qed.

Lemma bind_trace {E A B} (m : M E A) (k : A → M E B) :
  trace (m ≫= k)
  = match outcome m with
    | inl _ => trace m
    | inr a => trace m ++ trace (k a)
    end.
Proof.
  destruct m as [tr [e|a]]; [done|]. unfold mbind, M_bind, trace. cbn.
  by destruct (k a).
Qed.

(** The dispatcher answers every request with a result. *)
Lemma dispatch_returns (reg : list ToolDescriptor) (request : CallRequest) :
  ∃ r, outcome (dispatch reg request) = inr r ∧ res_id r = req_id request.
Proof.
  unfold dispatch. destruct (lookup_tool _ reg) as [d|]; [|by eexists].
  destruct (validate _ _) as [reason|args]; [by eexists|].
  destruct (handler d args) as [tr [e|v]]; by eexists.
Qed.

Lemma session_step_returns (reg : list ToolDescriptor) (st : session_state)
    (m : message) :
  ∃ r, outcome (session_step reg st m) = inr r.
Proof.
  destruct st, m; try by eexists.
  unfold session_step. rewrite bind_outcome.
  destruct (dispatch_returns reg request) as (r & -> & _). by eexists.
Qed.

Lemma lookup_tool_miss (name : string) (reg : list ToolDescriptor) :
  name ∉ list_tools reg → lookup_tool name reg = None.
Proof.
  unfold lookup_tool, list_tools.
  induction reg as [|d reg IH]; [done|]. cbn. intros Hnot.
  case_bool_decide as Hd.
  - exfalso. apply Hnot. rewrite Hd. apply list_elem_of_here.
  - apply IH. intros Hin. apply Hnot. by apply list_elem_of_further.
Qed.

Section registry_properties.
Context `{Platform}.

Lemma module_import_registry :
  module_import
  = ([NewFastMCP server_name server_instructions;
      RegisterTool "get_current_time"; RegisterTool "get_timestamp";
      RegisterTool "format_timestamp"],
     inr decorated_tools).
Proof. reflexivity. Qed.

Lemma decorated_tools_names : list_tools decorated_tools = registered_names.
Proof. reflexivity. Qed.

(** C4: a call that names none of the three registered tools is answered
    by an error result without a value; the dispatcher raises nothing and
    the session that received the call stays Ready. *)
Theorem unknown_tool_is_error_result (mcp : list ToolDescriptor)
    (request : CallRequest) :
  outcome module_import = inr mcp →
  toolName request ∉ registered_names →
  dispatch mcp request
  = ([], inr (mk_result (req_id request) None
                (Some ("unknown tool: " +:+ toolName request)))) ∧
  session_step mcp Ready (MCall request)
  = ([], inr (Ready,
              [OResult (mk_result (req_id request) None
                          (Some ("unknown tool: " +:+ toolName request)))])).
Proof.
  rewrite module_import_registry. intros [= <-] Hnot.
  assert (Hd : dispatch decorated_tools request
               = ([], inr (mk_result (req_id request) None
                      (Some ("unknown tool: " +:+ toolName request))))).
  { unfold dispatch. by rewrite lookup_tool_miss. }
  split; [done|]. unfold session_step. by rewrite Hd.
Qed.
End registry_properties.

Lemma unknown_tool_witness :
  let request := mk_request "7" "does-not-exist" ∅ in
  outcome module_import = inr decorated_tools ∧
  (toolName request ∉ registered_names) ∧
  dispatch decorated_tools request
  = ([], inr (mk_result "7" None (Some "unknown tool: does-not-exist"))).
Proof.
  intros request.
  assert (Hreg : outcome module_import = inr decorated_tools) by reflexivity.
  assert (Hnot : toolName request ∉ registered_names).
  { apply not_elem_of_cons. split; [discriminate|].
    apply not_elem_of_cons. split; [discriminate|].
    apply not_elem_of_cons. split; [discriminate|]. apply not_elem_of_nil. }
  split; [exact Hreg|]. split; [exact Hnot|].
  exact (proj1 (unknown_tool_is_error_result decorated_tools request
                  Hreg Hnot)).
Defined.

Example known_tool_with_default :
  outcome (dispatch decorated_tools (mk_request "1" "get_current_time" ∅))
  = inr (mk_result "1" (Some (VStr "2023-11-15 06:13:20 CST")) None).
Proof. reflexivity. Qed.

Example handler_error_is_error_result :
  outcome (dispatch decorated_tools
             (mk_request "2" "format_timestamp"
                {[ "timestamp" := VInt 0; "timezone" := VStr "Nowhere" ]}))
  = inr (mk_result "2" None (Some "无效的时区名称: Nowhere")).
Proof. reflexivity. Qed.

Example missing_argument_is_error_result :
  outcome (dispatch decorated_tools (mk_request "3" "format_timestamp" ∅))
  = inr (mk_result "3" None (Some "missing required field: timestamp")).
Proof. reflexivity. Qed.

(** ** Start-up *)

Lemma main_local (mcp : list ToolDescriptor) (cli : command_line) :
  cli_remote cli = false →
  main mcp cli = ([ParseArgs; McpRun mcp "stdio"], inr ()).
Proof. intros Hr. unfold main, parse_args. cbn. by rewrite Hr. Qed.

Lemma main_remote (mcp : list ToolDescriptor) (cli : command_line) :
  cli_remote cli = true →
  main mcp cli
  = (ParseArgs :: NewSseServerTransport "/messages"
       :: (PrintStderr <$>
             ["🌐 启动远程MCP服务器...";
              "   地址: http://" +:+ default "0.0.0.0" (cli_host cli) +:+ ":"
                +:+ pretty (default 8000 (cli_port cli));
              "   SSE端点: http://" +:+ default "0.0.0.0" (cli_host cli) +:+ ":"
                +:+ pretty (default 8000 (cli_port cli)) +:+ "/sse";
              "   消息端点: http://" +:+ default "0.0.0.0" (cli_host cli) +:+ ":"
                +:+ pretty (default 8000 (cli_port cli)) +:+ "/messages"])
       ++ [UvicornRun mcp (default "0.0.0.0" (cli_host cli))
             (default 8000 (cli_port cli))],
     inr ()).
Proof. intros Hr. unfold main, parse_args. cbn. by rewrite Hr. Qed.

Lemma printed_lines_filtered (f : proc_effect → bool) (lines : list string)
    (rest : list proc_effect) :
  (∀ line, f (PrintStderr line) = false) →
  List.filter f ((PrintStderr <$> lines) ++ rest) = List.filter f rest.
Proof.
  intros Hf. induction lines as [|line lines IH]; [done|].
  cbn. by rewrite Hf.
Qed.

(** C7: [main] reads the command line once and then starts exactly one
    transport, which is its last action: without [--remote] one stdio run of
    the server, with [--remote] the SSE server on the given host and port,
    [0.0.0.0] and [8000] when they are not given. *)
Theorem main_selects_one_transport (mcp : list ToolDescriptor)
    (cli : command_line) :
  (cli_remote cli = false →
     main mcp cli = ([ParseArgs; McpRun mcp "stdio"], inr ())) ∧
  (cli_remote cli = true →
     ∃ lines,
       main mcp cli
       = (ParseArgs :: NewSseServerTransport sse_transport_endpoint
            :: (PrintStderr <$> lines)
            ++ [UvicornRun mcp (default "0.0.0.0" (cli_host cli))
                  (default 8000 (cli_port cli))],
          inr ())) ∧
  length (List.filter is_parse_args (trace (main mcp cli))) = 1%nat ∧
  length (List.filter is_serve (trace (main mcp cli))) = 1%nat ∧
  ∃ before ev, trace (main mcp cli) = ParseArgs :: before ++ [ev] ∧
               is_serve ev = true.
Proof.
  split; [exact (main_local mcp cli)|].
  split; [intros Hr; eexists; exact (main_remote mcp cli Hr)|].
  destruct (cli_remote cli) eqn:Hr.
  - rewrite (main_remote mcp cli Hr). unfold trace, fst.
    match goal with
    | |- context [PrintStderr <$> ?l] => generalize l
    end.
    intros lines. cbn [List.filter is_parse_args is_serve].
    rewrite !printed_lines_filtered by done. split; [done|]. split; [done|].
    by exists (NewSseServerTransport "/messages" :: (PrintStderr <$> lines)),
              (UvicornRun mcp (default "0.0.0.0" (cli_host cli))
                 (default 8000 (cli_port cli))).
  - rewrite (main_local mcp cli Hr). split; [done|]. split; [done|].
    by exists [], (McpRun mcp "stdio").
Qed.

Lemma main_selects_one_transport_witness :
  main [] (mk_cli false None None) = ([ParseArgs; McpRun [] "stdio"], inr ()) ∧
  trace (main [] (mk_cli true None None))
  = [ParseArgs; NewSseServerTransport "/messages";
     PrintStderr "🌐 启动远程MCP服务器...";
     PrintStderr "   地址: http://0.0.0.0:8000";
     PrintStderr "   SSE端点: http://0.0.0.0:8000/sse";
     PrintStderr "   消息端点: http://0.0.0.0:8000/messages";
     UvicornRun [] "0.0.0.0" 8000].
Proof.
  split.
  - exact (proj1 (main_selects_one_transport [] (mk_cli false None None))
             eq_refl).
  - reflexivity.
Defined.

Example remote_with_port :
  List.filter is_serve (trace (main [] (mk_cli true (Some "127.0.0.1") (Some 9000))))
  = [UvicornRun [] "127.0.0.1" 9000].
Proof. reflexivity. Qed.

(** ** The registry while serving *)

Lemma run_session_tools (sid : string) (srv : server) :
  ∃ srv', outcome (run_session sid srv) = inr srv' ∧
          srv_tools srv' = srv_tools srv.
Proof.
  unfold run_session.
  destruct (srv_sessions srv !! sid) as [[st [|m rest] out]|];
    try by eexists.
  rewrite bind_outcome.
  destruct (session_step_returns (srv_tools srv) st m) as ([st' answers] & ->).
  by eexists.
Qed.

Lemma serve_step_tools (op : serve_op) (srv : server) :
  ∃ srv', outcome (serve_step op srv) = inr srv' ∧
          srv_tools srv' = srv_tools srv.
Proof.
  destruct op as [sid|token body|sid|sid]; cbn.
  - eexists. split; [done|]. unfold open_stream.
    by destruct (srv_sessions srv !! sid).
  - eexists. split; [done|]. unfold post_message.
    destruct token as [sid|]; [|done].
    destruct (srv_sessions srv !! sid); [|done]. by destruct body.
  - by eexists.
  - apply run_session_tools.
Qed.

Lemma serve_tools (ops : list serve_op) (srv : server) :
  ∃ srv', outcome (serve ops srv) = inr srv' ∧
          srv_tools srv' = srv_tools srv.
Proof.
  revert srv. induction ops as [|op ops IH]; intros srv; [by eexists|].
  cbn [serve]. rewrite bind_outcome.
  destruct (serve_step_tools op srv) as (srv1 & -> & H1).
  destruct (IH srv1) as (srv2 & H2 & Ht). exists srv2.
  split; [done | congruence].
Qed.

Lemma main_returns (mcp : list ToolDescriptor) (cli : command_line) :
  ∃ tr, main mcp cli = (tr, inr ()).
Proof.
  destruct (cli_remote cli) eqn:Hr; eexists.
  - by apply main_remote.
  - by apply main_local.
Qed.

Lemma main_registers_nothing (mcp : list ToolDescriptor)
    (cli : command_line) :
  List.filter is_register (trace (main mcp cli)) = [].
Proof.
  destruct (cli_remote cli) eqn:Hr.
  - rewrite (main_remote mcp cli Hr). unfold trace, fst.
    cbn [List.filter is_register]. by rewrite printed_lines_filtered.
  - by rewrite (main_local mcp cli Hr).
Qed.

Section startup_properties.
Context `{Platform}.

(** C5: the three registrations are made while the module is imported,
    before [main] picks a transport; they succeed because the names are
    distinct; [main] registers nothing; and nothing the server does while
    serving changes the registry. *)
Theorem registry_frozen_before_serving (cli : command_line) :
  outcome module_import = inr decorated_tools ∧
  list_tools decorated_tools = registered_names ∧
  NoDup registered_names ∧
  trace (process cli)
  = trace module_import ++ trace (main decorated_tools cli) ∧
  List.filter is_register (trace module_import)
  = RegisterTool <$> registered_names ∧
  List.filter is_serve (trace module_import) = [] ∧
  List.filter is_register (trace (main decorated_tools cli)) = [] ∧
  outcome (process cli) = inr decorated_tools ∧
  (∀ ops srv, ∃ srv', outcome (serve ops srv) = inr srv' ∧
                      srv_tools srv' = srv_tools srv).
Proof.
  split; [done|]. split; [done|].
  split; [by apply (bool_decide_unpack (NoDup registered_names))|].
  assert (Hp : process cli
               = (trace module_import ++ trace (main decorated_tools cli),
                  inr decorated_tools)).
  { destruct (main_returns decorated_tools cli) as [tr Hm].
    unfold process. rewrite module_import_registry.
    cbn -[main decorated_tools]. rewrite Hm. cbn. by rewrite app_nil_r. }
  rewrite Hp. split; [done|]. split; [done|]. split; [done|].
  split; [apply main_registers_nothing|]. split; [done|].
  apply serve_tools.
Qed.
End startup_properties.

(** A duplicate name would have stopped the import. *)
Example second_registration_fails :
  register get_timestamp_tool decorated_tools
  = inl (mk_exn DuplicateNameError "get_timestamp").
Proof. reflexivity. Qed.

(** ** Posting to a session *)

(** C8: a POST whose token names no live session (there is no token, or no
    session under it) gets a client-error status and leaves the server,
    hence every session, as it was; a POST that names a live session and
    carries a message that decodes is acknowledged with 202, queued for that
    session, and touches no other session; a POST that names a live session
    with a body that does not decode gets a client-error status. *)
Theorem post_message_status (token : option string) (body : option message)
    (srv : server) :
  ((∀ sid, token = Some sid → srv_sessions srv !! sid = None) →
     400 ≤ snd (post_message token body srv) < 500 ∧
     fst (post_message token body srv) = srv) ∧
  (∀ sid s m,
     token = Some sid → srv_sessions srv !! sid = Some s → body = Some m →
     snd (post_message token body srv) = 202 ∧
     srv_sessions (fst (post_message token body srv)) !! sid
     = Some (mk_session (s_state s) (s_inbound s ++ [m]) (s_outbound s)) ∧
     ∀ other, other ≠ sid →
       srv_sessions (fst (post_message token body srv)) !! other
       = srv_sessions srv !! other) ∧
  (∀ sid s,
     token = Some sid → srv_sessions srv !! sid = Some s → body = None →
     400 ≤ snd (post_message token body srv) < 500 ∧
     fst (post_message token body srv) = srv).
Proof.
  split; [|split].
  - intros Hmiss. unfold post_message. destruct token as [sid|].
    + rewrite (Hmiss sid eq_refl). cbn. split; [lia | done].
    + cbn. split; [lia | done].
  - intros sid s m -> Hs ->. unfold post_message. rewrite Hs. cbn.
    split; [done|]. split; [apply lookup_insert_eq|].
    intros other Hne. by apply lookup_insert_ne.
  - intros sid s -> Hs ->. unfold post_message. rewrite Hs. cbn.
    split; [lia | done].
Qed.

Lemma post_message_status_witness :
  let srv := mk_server [] {[ "a1" := mk_session Ready [] [] ]} in
  (∀ sid, Some "b2" = Some sid → srv_sessions srv !! sid = None) ∧
  400 ≤ snd (post_message (Some "b2") (Some MClose) srv) < 500 ∧
  fst (post_message (Some "b2") (Some MClose) srv) = srv ∧
  snd (post_message (Some "a1") (Some MClose) srv) = 202.
Proof.
  intros srv.
  assert (Hmiss : ∀ sid, Some "b2" = Some sid → srv_sessions srv !! sid = None).
  { by intros sid [= <-]. }
  split; [exact Hmiss|].
  destruct (proj1 (post_message_status (Some "b2") (Some MClose) srv) Hmiss)
    as [Hstatus Hsame].
  split; [exact Hstatus|]. split; [exact Hsame|].
  exact (proj1 (proj1 (proj2 (post_message_status (Some "a1") (Some MClose)
                                srv))
                  "a1" (mk_session Ready [] []) MClose
                  eq_refl eq_refl eq_refl)).
Defined.

(** C8 as stated fails: a POST that names a live session but carries a body
    that does not decode is answered with 400, not acknowledged. *)
Lemma live_session_malformed_body_rejected :
  ¬ (∀ (srv : server) (sid : string) (body : option message),
       is_Some (srv_sessions srv !! sid) →
       200 ≤ snd (post_message (Some sid) body srv) < 300).
Proof.
  intros Hall.
  specialize (Hall (mk_server [] {[ "a1" := mk_session Ready [] [] ]})
                "a1" None).
  assert (Hlive : is_Some (({[ "a1" := mk_session Ready [] [] ]}
                              : gmap string session) !! "a1")) by by eexists.
  specialize (Hall Hlive). change (200 ≤ 400 < 300) in Hall. lia.
Qed.

Example malformed_body_status :
  post_message (Some "a1") None
    (mk_server [] {[ "a1" := mk_session Ready [] [] ]})
  = (mk_server [] {[ "a1" := mk_session Ready [] [] ]}, 400).
Proof. reflexivity. Qed.

(** ** Further properties of the time tools *)

Lemma append_empty_r (t : string) : t +:+ EmptyString = t.
Proof.
  induction t as [|a t IH]; [done|].
  change (String a (t +:+ EmptyString) = String a t). by rewrite IH.
Qed.

Lemma append_assoc (s1 s2 s3 : string) :
  (s1 +:+ s2) +:+ s3 = s1 +:+ (s2 +:+ s3).
Proof.
  induction s1 as [|a s1 IH]; [done|].
  change (String a ((s1 +:+ s2) +:+ s3) = String a (s1 +:+ (s2 +:+ s3))).
  by rewrite IH.
Qed.

Section further_tool_properties.
Context `{Platform}.

(** X1: a failure of the zone lookup that is not a [ZoneInfoNotFoundError]
    (a malformed key, an unreadable file) is not rewritten: both handlers
    raise that very exception, after the lookup and nothing else. *)
Theorem other_lookup_failure_passes_through (timezone : string) (e : exn) :
  ZoneInfo timezone = inl e →
  issubclass (exn_class e) ZoneInfoNotFoundError = false →
  get_current_time timezone = ([CallZoneInfo timezone], inl e) ∧
  ∀ timestamp,
    format_timestamp timestamp timezone = ([CallZoneInfo timezone], inl e).
Proof.
  intros He Hc. split; [|intros timestamp].
  - unfold get_current_time. rewrite (zone_lookup_failed _ _ _ He).
    by rewrite (not_caught_by_lookup _ Hc).
  - unfold format_timestamp. rewrite (zone_lookup_failed _ _ _ He).
    by rewrite (not_caught_by_lookup _ Hc).
Qed.

(** X2: with a valid timezone, a failure of the conversion that is neither an
    [OSError] nor an [OverflowError] leaves [format_timestamp] as it is, not
    rewritten into the invalid-timestamp error, and nothing is formatted. *)
Theorem other_conversion_failure_passes_through (timestamp : Z)
    (timezone : string) (tz : tzinfo) (e : exn) :
  ZoneInfo timezone = inr tz →
  datetime_fromtimestamp timestamp tz = inl e →
  issubclass (exn_class e) OSError = false →
  issubclass (exn_class e) OverflowError = false →
  format_timestamp timestamp timezone
  = ([CallZoneInfo timezone; CallFromTimestamp timestamp], inl e).
Proof.
  intros Hz He Hos Hov. rewrite (format_timestamp_recognised _ _ _ Hz), He.
  by rewrite Hos, Hov.
Qed.

(** X3: the invalid-timestamp error keeps the text of the failure it
    replaces: its message contains both the timestamp and [str(e)], and the
    handler stops at the failed conversion. *)
Theorem timestamp_error_keeps_cause (timestamp : Z) (timezone : string)
    (tz : tzinfo) (e : exn) :
  ZoneInfo timezone = inr tz →
  datetime_fromtimestamp timestamp tz = inl e →
  (issubclass (exn_class e) OSError
   || issubclass (exn_class e) OverflowError) = true →
  ∃ msg,
    format_timestamp timestamp timezone
    = ([CallZoneInfo timezone; CallFromTimestamp timestamp],
       inl (mk_exn ValueError msg)) ∧
    mentions msg (pretty timestamp) ∧ mentions msg (exn_msg e).
Proof.
  intros Hz He Hc. rewrite (format_timestamp_recognised _ _ _ Hz), He, Hc.
  eexists. split; [done|]. split; [apply mentions_middle|].
  exists ("无效的时间戳: " +:+ pretty timestamp +:+ "。错误: "), EmptyString.
  by rewrite append_empty_r, !append_assoc.
Qed.

(** X4: the calls a handler makes, for every input, as decided by what the
    lookup and the conversion return.  Each handler starts with one lookup of
    the given zone name.  If the lookup fails that is the only call: the
    clock is not read and nothing is converted or formatted.  If it
    succeeds, [get_current_time] reads the clock and formats, and never
    converts a timestamp; [format_timestamp] converts, never reads the
    clock, and formats, with the same format, exactly when the conversion
    succeeds. *)
Theorem handler_call_sequences (timestamp : Z) (timezone : string) :
  trace (get_current_time timezone)
  = match ZoneInfo timezone with
    | inl _ => [CallZoneInfo timezone]
    | inr _ => [CallZoneInfo timezone; CallNow; CallStrftime time_format]
    end ∧
  trace (format_timestamp timestamp timezone)
  = match ZoneInfo timezone with
    | inl _ => [CallZoneInfo timezone]
    | inr tz =>
        match datetime_fromtimestamp timestamp tz with
        | inl _ => [CallZoneInfo timezone; CallFromTimestamp timestamp]
        | inr _ => [CallZoneInfo timezone; CallFromTimestamp timestamp;
                    CallStrftime time_format]
        end
    end.
Proof.
  destruct (ZoneInfo timezone) as [e|tz] eqn:Hz.
  - split.
    + unfold get_current_time. by rewrite (zone_lookup_failed _ _ _ Hz).
    + unfold format_timestamp. by rewrite (zone_lookup_failed _ _ _ Hz).
  - split.
    + by rewrite (get_current_time_recognised _ _ Hz).
    + rewrite (format_timestamp_recognised _ _ _ Hz).
      by destruct (datetime_fromtimestamp timestamp tz).
Qed.
End further_tool_properties.

Lemma other_lookup_failure_witness :
  ZoneInfo "/etc/localtime"
  = inl (mk_exn ValueError
           "ZoneInfo keys may not be absolute paths, got: /etc/localtime") ∧
  issubclass ValueError ZoneInfoNotFoundError = false ∧
  outcome (format_timestamp 0 "/etc/localtime")
  = inl (mk_exn ValueError
           "ZoneInfo keys may not be absolute paths, got: /etc/localtime").
Proof.
  split; [reflexivity|]. split; [reflexivity|].
  exact (f_equal snd
           (proj2 (other_lookup_failure_passes_through "/etc/localtime"
                     (mk_exn ValueError
                        "ZoneInfo keys may not be absolute paths, got: /etc/localtime")
                     eq_refl eq_refl) 0)).
Defined.

Lemma other_conversion_failure_witness :
  ZoneInfo "UTC" = inr (0, "UTC") ∧
  datetime_fromtimestamp (10 ^ 12) (0, "UTC")
  = inl (mk_exn ValueError "year 33658 is out of range") ∧
  format_timestamp (10 ^ 12) "UTC"
  = ([CallZoneInfo "UTC"; CallFromTimestamp (10 ^ 12)],
     inl (mk_exn ValueError "year 33658 is out of range")).
Proof.
  split; [reflexivity|]. split; [reflexivity|].
  exact (other_conversion_failure_passes_through (10 ^ 12) "UTC" (0, "UTC")
           (mk_exn ValueError "year 33658 is out of range")
           eq_refl eq_refl eq_refl eq_refl).
Defined.

Lemma timestamp_error_keeps_cause_witness :
  ZoneInfo "Asia/Tokyo" = inr (32400, "JST") ∧
  datetime_fromtimestamp (10 ^ 17) (32400, "JST")
  = inl (mk_exn OSError "[Errno 75] Value too large for defined data type") ∧
  ∃ msg,
    format_timestamp (10 ^ 17) "Asia/Tokyo"
    = ([CallZoneInfo "Asia/Tokyo"; CallFromTimestamp (10 ^ 17)],
       inl (mk_exn ValueError msg)) ∧
    mentions msg "100000000000000000" ∧
    mentions msg "[Errno 75] Value too large for defined data type".
Proof.
  split; [reflexivity|]. split; [reflexivity|].
  exact (timestamp_error_keeps_cause (10 ^ 17) "Asia/Tokyo" (32400, "JST")
           (mk_exn OSError "[Errno 75] Value too large for defined data type")
           eq_refl eq_refl eq_refl).
Defined.

(** ** Further properties of the router *)

Lemma app_no_type (scope : gmap string string) :
  scope !! "type" = None →
  app scope = ([], inl (mk_exn KeyError "'type'")).
Proof. intros Hty. unfold app, getitem. by rewrite Hty. Qed.

Lemma app_no_path (scope : gmap string string) :
  scope !! "type" = Some "http" →
  scope !! "path" = None →
  app scope = ([], inl (mk_exn KeyError "'path'")).
Proof. intros Hty Hpath. unfold app, getitem. by rewrite Hty, Hpath. Qed.

(** X6: a scope without a [type] entry, and an HTTP scope without a [path]
    entry, make [app] raise [KeyError] for that key before anything is
    sent: the client gets no 404 and neither handler is entered. *)
Theorem app_missing_key (scope : gmap string string) :
  (scope !! "type" = None →
     app scope = ([], inl (mk_exn KeyError "'type'"))) ∧
  (scope !! "type" = Some "http" → scope !! "path" = None →
     app scope = ([], inl (mk_exn KeyError "'path'"))).
Proof. split; [apply app_no_type | apply app_no_path]. Qed.

Lemma app_missing_key_witness :
  let scope : gmap string string := {[ "type" := "http"; "method" := "GET" ]} in
  scope !! "type" = Some "http" ∧ scope !! "path" = None ∧
  app scope = ([], inl (mk_exn KeyError "'path'")) ∧
  app (∅ : gmap string string) = ([], inl (mk_exn KeyError "'type'")).
Proof.
  intros scope.
  assert (Hty : scope !! "type" = Some "http") by reflexivity.
  assert (Hpath : scope !! "path" = None) by reflexivity.
  split; [exact Hty|]. split; [exact Hpath|]. split.
  - exact (proj2 (app_missing_key scope) Hty Hpath).
  - exact (proj1 (app_missing_key ∅) eq_refl).
Defined.

(** X7: an HTTP scope without a [method] entry is routed as a GET: it
    reaches the SSE handler exactly when its path is [/sse], and never the
    message handler; any other path, [/messages] included, gets the 404. *)
Theorem app_without_method (scope : gmap string string) (path : string) :
  scope !! "type" = Some "http" →
  scope !! "path" = Some path →
  scope !! "method" = None →
  (path = "/sse" → app scope = ([HandleSse scope], inr ())) ∧
  (path ≠ "/sse" → app scope = (not_found_response, inr ())).
Proof.
  intros Hty Hpath Hm. rewrite (app_http _ _ Hty Hpath), Hm. cbn.
  rewrite andb_true_r, andb_false_r. split; intros Hp.
  - by rewrite bool_decide_eq_true_2.
  - by rewrite bool_decide_eq_false_2.
Qed.

Lemma app_without_method_witness :
  let scope : gmap string string :=
    {[ "type" := "http"; "path" := "/messages" ]} in
  scope !! "type" = Some "http" ∧ scope !! "path" = Some "/messages" ∧
  scope !! "method" = None ∧
  app scope = (not_found_response, inr ()).
Proof.
  intros scope.
  assert (Hty : scope !! "type" = Some "http") by reflexivity.
  assert (Hpath : scope !! "path" = Some "/messages") by reflexivity.
  assert (Hm : scope !! "method" = None) by reflexivity.
  split; [exact Hty|]. split; [exact Hpath|]. split; [exact Hm|].
  apply (proj2 (app_without_method scope "/messages" Hty Hpath Hm)).
  discriminate.
Defined.

(** X8: whatever the scope, [app] does one of five things: nothing; raise a
    [KeyError] having done nothing; enter the SSE handler; enter the message
    handler; send the complete 404 response, start event then body.  It
    never sends part of a response, never both answers and enters a handler,
    and hands a handler the scope it was given. *)
Theorem app_outcomes (scope : gmap string string) :
  app scope = ([], inr ()) ∨
  (∃ msg, app scope = ([], inl (mk_exn KeyError msg))) ∨
  app scope = ([HandleSse scope], inr ()) ∨
  app scope = ([HandlePostMessage scope], inr ()) ∨
  app scope = (not_found_response, inr ()).
Proof.
  destruct (scope !! "type") as [ty|] eqn:Hty.
  - destruct (decide (ty = "http")) as [->|Hne].
    + destruct (scope !! "path") as [path|] eqn:Hpath.
      * rewrite (app_http _ _ Hty Hpath).
        destruct (bool_decide (path = "/sse") && _); [by right; right; left|].
        destruct (bool_decide (path = "/messages") && _).
        -- by right; right; right; left.
        -- by right; right; right; right.
      * right; left. eexists. by apply app_no_path.
    + left. unfold app, getitem. rewrite Hty. cbn.
      by rewrite bool_decide_eq_true_2.
  - right; left. eexists. by apply app_no_type.
Qed.

(** X9: routing reads three entries of the scope and no other.  Two scopes
    that agree on [type], [path] and [method] are treated alike, whatever
    their query strings, headers or other entries; each handler call receives
    the scope of its own request. *)
Theorem routing_reads_three_entries (scope scope' : gmap string string) :
  scope' !! "type" = scope !! "type" →
  scope' !! "path" = scope !! "path" →
  scope' !! "method" = scope !! "method" →
  app scope' = (retarget scope' <$> trace (app scope), outcome (app scope)).
Proof.
  intros Hty Hpath Hm. unfold app, getitem. rewrite Hty, Hpath, Hm.
  destruct (scope !! "type") as [ty|]; [|done]. cbn.
  destruct (bool_decide (ty ≠ "http")); [done|].
  destruct (scope !! "path") as [path|]; [|done]. cbn.
  destruct (bool_decide (path = "/sse") && _); [done|].
  by destruct (bool_decide (path = "/messages") && _).
Qed.

Lemma routing_reads_three_entries_witness :
  let scope := http_scope "POST" "/messages?session_id=3f2a" in
  let scope' := http_scope "POST" "/messages" in
  scope' !! "type" = scope !! "type" ∧
  scope' !! "path" = scope !! "path" ∧
  scope' !! "method" = scope !! "method" ∧
  app scope' = ([HandlePostMessage scope'], inr ()).
Proof.
  intros scope scope'.
  assert (Hty : scope' !! "type" = scope !! "type") by reflexivity.
  assert (Hpath : scope' !! "path" = scope !! "path") by reflexivity.
  assert (Hm : scope' !! "method" = scope !! "method") by reflexivity.
  split; [exact Hty|]. split; [exact Hpath|]. split; [exact Hm|].
  exact (routing_reads_three_entries scope scope' Hty Hpath Hm).
Defined.

(** ** Further properties of start-up *)

(** X10: without [--remote] the values of [--host] and [--port] have no
    effect: two command lines that both lack [--remote] make [main] do the
    same thing, which creates no SSE transport, prints nothing and starts no
    HTTP server. *)
Theorem local_mode_ignores_address (mcp : list ToolDescriptor)
    (cli cli' : command_line) :
  cli_remote cli = false →
  cli_remote cli' = false →
  main mcp cli = main mcp cli' ∧
  ∀ ev, ev ∈ trace (main mcp cli) → ev = ParseArgs ∨ ev = McpRun mcp "stdio".
Proof.
  intros Hr Hr'. rewrite (main_local mcp cli Hr), (main_local mcp cli' Hr').
  split; [done|]. intros ev. cbn. rewrite !elem_of_cons, elem_of_nil.
  tauto.
Qed.

Lemma local_mode_ignores_address_witness :
  main [] (mk_cli false (Some "127.0.0.1") (Some 9000))
  = main [] (mk_cli false None None).
Proof.
  exact (proj1 (local_mode_ignores_address []
                  (mk_cli false (Some "127.0.0.1") (Some 9000))
                  (mk_cli false None None) eq_refl eq_refl)).
Defined.

(** ** The default timezone *)

Section default_timezone.
Context `{Platform}.

Lemma lookup_get_current_time :
  lookup_tool "get_current_time" decorated_tools = Some get_current_time_tool.
Proof. reflexivity. Qed.

Lemma lookup_format_timestamp :
  lookup_tool "format_timestamp" decorated_tools = Some format_timestamp_tool.
Proof. reflexivity. Qed.

(** X11: the default of the [timezone] parameter (lines 37 and 88).  A call
    of [get_current_time] or of [format_timestamp] that gives no timezone is
    answered exactly as the same call with [Asia/Shanghai], whatever its
    other arguments. *)
Theorem timezone_defaults_to_shanghai (id : string)
    (args : gmap string value) :
  args !! "timezone" = None →
  dispatch decorated_tools (mk_request id "get_current_time" args)
  = dispatch decorated_tools
      (mk_request id "get_current_time"
         (<["timezone" := VStr "Asia/Shanghai"]> args)) ∧
  dispatch decorated_tools (mk_request id "format_timestamp" args)
  = dispatch decorated_tools
      (mk_request id "format_timestamp"
         (<["timezone" := VStr "Asia/Shanghai"]> args)).
Proof.
  intros Htz. unfold dispatch. cbn [toolName arguments req_id].
  rewrite lookup_get_current_time, lookup_format_timestamp.
  cbn [inputSchema get_current_time_tool format_timestamp_tool validate
       p_name p_kind p_default].
  rewrite Htz, lookup_insert_eq.
  rewrite (lookup_insert_ne args "timezone" "timestamp") by done.
  split; [done|].
  destruct (args !! "timestamp") as [v|]; [|done]. by destruct v.
Qed.
End default_timezone.

Lemma timezone_defaults_witness :
  let args : gmap string value := {[ "timestamp" := VInt 0 ]} in
  args !! "timezone" = None ∧
  outcome (dispatch decorated_tools (mk_request "9" "format_timestamp" args))
  = inr (mk_result "9" (Some (VStr "1970-01-01 08:00:00 CST")) None).
Proof.
  intros args.
  assert (Htz : args !! "timezone" = None) by reflexivity.
  split; [exact Htz|].
  rewrite (proj2 (timezone_defaults_to_shanghai "9" args Htz)).
  reflexivity.
Defined.
